(** * farstack: the FastAPI gateway of [main.py]

    A shallow embedding of the startup check ([verify_paths], [lifespan]),
    of the mount that runs when the module is loaded, and of the root
    handler ([read_index]).  The module-level logger is an append-only list
    of records, exceptions are an explicit result type, and the filesystem
    the program looks at is a parameter of every operation, because it can
    change between the startup check and a request. *)

From Stdlib Require Import List String Ascii Bool Arith Lia.
From Stdlib Require Import Numbers.DecimalString.
From Stdlib Require Init.Byte.
Import ListNotations.
Open Scope string_scope.

(** ** Paths *)

Module PurePath.

(** The two flavours of [pathlib]: which one [Path] is depends on the
    platform the program runs on. *)
Inductive flavour : Type := Posix | Windows.

(** The separator [str] puts between components. *)
Definition sep (f : flavour) : string :=
  match f with Posix => "/" | Windows => "\" end.

(** A [pathlib.Path]: its flavour, the anchor (drive and root, or the empty
    string for a relative path) and the components below it. *)
Record Path : Type :=
  mkPath { flavour_of : flavour; anchor : string; parts : list string }.

(** [path / name], for a plain component name. *)
Definition joinpath (p : Path) (name : string) : Path :=
  {| flavour_of := flavour_of p; anchor := anchor p;
     parts := parts p ++ [name] |}.

(** [str(path)], which is what an f-string prints. *)
Definition str (p : Path) : string :=
  match anchor p, parts p with
  | EmptyString, [] => "."
  | a, ps => a ++ String.concat (sep (flavour_of p)) ps
  end.

Definition flavour_eqb (f g : flavour) : bool :=
  match f, g with
  | Posix, Posix | Windows, Windows => true
  | _, _ => false
  end.

Definition eqb (p q : Path) : bool :=
  flavour_eqb (flavour_of p) (flavour_of q)
  && String.eqb (anchor p) (anchor q)
  && if list_eq_dec string_dec (parts p) (parts q) then true else false.

End PurePath.

Export PurePath(Path).
Infix "//" := PurePath.joinpath (at level 40, left associativity).

(** ** Exceptions *)

(** The exception classes the program meets.  [HTTPException],
    [RuntimeError] and [OSError] derive from [Exception];
    [KeyboardInterrupt] and [CancelledError] derive from [BaseException]
    only, so an [except Exception] clause lets them through. *)
Inductive exn : Type :=
| HTTPException (status_code : nat) (detail : string)
| RuntimeError (msg : string)
| OSError (msg : string)
| KeyboardInterrupt
| CancelledError.

Definition isinstance_Exception (e : exn) : bool :=
  match e with
  | HTTPException _ _ | RuntimeError _ | OSError _ => true
  | KeyboardInterrupt | CancelledError => false
  end.

Definition str_nat (n : nat) : string := NilEmpty.string_of_uint (Nat.to_uint n).

(** [str(e)]: the framework's [HTTPException] prints its status code and
    detail, the built-in classes print their message. *)
Definition str_exn (e : exn) : string :=
  match e with
  | HTTPException status_code detail => str_nat status_code ++ ": " ++ detail
  | RuntimeError msg | OSError msg => msg
  | KeyboardInterrupt | CancelledError => ""
  end.

(** ** Logging and control flow *)

Inductive level : Type := DEBUG | INFO | WARNING | ERROR | CRITICAL.

(** One emitted record: its severity and its message. *)
Definition record : Type := level * string.

Inductive result (A : Type) : Type :=
| Return (a : A)
| Raise (e : exn).
Arguments Return {A} a.
Arguments Raise {A} e.

(** A computation emits log records, then returns or raises. *)
Definition M (A : Type) : Type := list record * result A.

Definition ret {A} (a : A) : M A := ([], Return a).
Definition raise {A} (e : exn) : M A := ([], Raise e).

(** A call into the world outside: it logs nothing, and returns or raises
    as the world answers. *)
Definition call {A} (r : result A) : M A := ([], r).

Definition bind {A B} (m : M A) (k : A -> M B) : M B :=
  match m with
  | (l, Return a) => let (l', r) := k a in ((l ++ l')%list, r)
  | (l, Raise e) => (l, Raise e)
  end.

(** [try: m  except Exception as e: h e] *)
Definition try_except_Exception {A} (m : M A) (h : exn -> M A) : M A :=
  match m with
  | (l, Raise e) =>
      if isinstance_Exception e then let (l', r) := h e in ((l ++ l')%list, r)
      else (l, Raise e)
  | (l, Return a) => (l, Return a)
  end.

Declare Scope py_scope.
Delimit Scope py_scope with py.
Notation "x <- m ;; k" := (bind m (fun x => k))
  (at level 100, m at next level, right associativity) : py_scope.
Notation "m ;; k" := (bind m (fun _ => k))
  (at level 100, right associativity) : py_scope.
Open Scope py_scope.

(** [logging.basicConfig(level=logging.INFO)]: records below INFO are
    dropped. *)
Definition enabled (lv : level) : bool :=
  match lv with DEBUG => false | _ => true end.

Definition log (lv : level) (msg : string) : M unit :=
  (if enabled lv then [(lv, msg)] else [], Return tt).

Definition logger_info := log INFO.
Definition logger_error := log ERROR.
Definition logger_critical := log CRITICAL.

(** ** The world outside the program *)

Definition bytes : Type := list Byte.byte.

(** What the operating system answers at one moment. *)
Record World : Type := {
  (* Path.exists(): True or False, or the exception that leaves the call:
     the OSError of the underlying stat that it does not swallow (a
     PermissionError, say), or an interrupt arriving during it *)
  exists_ : Path -> result bool;
  (* os.path.isdir() *)
  is_dir : Path -> bool;
  (* opening and reading a file *)
  read_file : Path -> result bytes;
  (* os.cpu_count() *)
  cpu_count : option nat
}.

Definition str_cpu_count (c : option nat) : string :=
  match c with Some n => str_nat n | None => "None" end.

(** An HTTP response as it goes out to the client. *)
Record Response : Type := {
  status_code : nat;
  media_type : string;
  body : bytes
}.

(** The response object of the framework's [FileResponse] class, which is
    not part of the source: the path of the file to send, the status code
    and the content type. *)
Module FileResponse.
Record t : Type := make { path : Path; status_code : nat; media_type : string }.
End FileResponse.

(** Modelled from the spec: [FileResponse(path, media_type=...)] stands for
    a 200 response with the contents of the file under the given content
    type.  Building the object does not touch the file. *)
Definition FileResponse (path : Path) (media_type : string) : FileResponse.t :=
  FileResponse.make path 200 media_type.

(** Modelled from the spec: the framework sends the object the handler has
    returned, and only then opens the file; the client receives the
    contents with the status and the content type of the object.  When the
    read fails the handler has returned already, and what the client
    receives is the framework's business: there is no answer here. *)
Definition send (w : World) (r : FileResponse.t) : option Response :=
  match read_file w (FileResponse.path r) with
  | Return content =>
      Some {| status_code := FileResponse.status_code r;
              media_type := FileResponse.media_type r;
              body := content |}
  | Raise _ => None
  end.

(** [StaticFiles(directory=..., check_dir=True)], the framework's class, not
    part of the source: with [check_dir] set ("Verify directory exists", in
    the words of the source) building the object raises a [RuntimeError]
    unless the directory is an existing directory. *)
Definition StaticFiles (w : World) (directory : Path) : M unit :=
  if is_dir w directory then ret tt
  else raise (RuntimeError
                ("Directory '" ++ PurePath.str directory ++ "' does not exist")).

(** Whether the process has a listener. *)
Inductive listener : Type := Listening | NoListener.

(** ** The application *)

Section App.

(** [BASE_DIR = Path(__file__).parent], fixed when the module is loaded. *)
Variable BASE_DIR : Path.

Definition STATIC_DIR : Path := BASE_DIR // "static".
Definition ASSETS_DIR : Path := STATIC_DIR // "assets".
Definition INDEX_PATH : Path := STATIC_DIR // "index.html".

Definition required_paths : list Path := [STATIC_DIR; ASSETS_DIR; INDEX_PATH].

(** The [for path in required_paths] loop of [verify_paths]. *)
Fixpoint verify_paths_loop (w : World) (paths : list Path) : M bool :=
  match paths with
  | [] => ret true
  | path :: rest =>
      found <- call (exists_ w path) ;;
      if negb found then
        logger_error ("Required path does not exist: " ++ PurePath.str path) ;;
        ret false
      else verify_paths_loop w rest
  end.

Definition verify_paths (w : World) : M bool :=
  verify_paths_loop w required_paths.

(** [lifespan] up to its [yield]: returning means the application runs. *)
Definition lifespan_startup (w : World) : M unit :=
  logger_info ("Starting up application... " ++ str_cpu_count (cpu_count w)) ;;
  ok <- verify_paths w ;;
  if negb ok then
    logger_critical "Required paths are missing!" ;;
    raise (RuntimeError "Application cannot start: missing required paths")
  else ret tt.

(** [lifespan] after its [yield]. *)
Definition lifespan_shutdown : M unit :=
  logger_info "Shutting down application...".

(** What loading the module runs that can fail: the [StaticFiles] object of
    the [app.mount] call is built at module level. *)
Definition load_module (w : World) : M unit :=
  StaticFiles w ASSETS_DIR.

(** Bringing the application up: the module is loaded, then the server
    enters the lifespan. *)
Definition startup (w : World) : M unit :=
  load_module w ;;
  lifespan_startup w.

(** Modelled from the spec: the server that runs the application is not part
    of the source (its launch is commented out).  Following the spec, the
    process begins serving only when startup has succeeded. *)
Definition serve (w : World) : list record * listener :=
  match startup w with
  | (l, Return _) => (l, Listening)
  | (l, Raise _) => (l, NoListener)
  end.

(** The body of the [try] of [read_index]. *)
Definition read_index_body (w : World) : M FileResponse.t :=
  found <- call (exists_ w INDEX_PATH) ;;
  (if negb found then
     raise (HTTPException 404 "Index file not found")
   else ret tt) ;;
  ret (FileResponse INDEX_PATH "text/html").

(** The [except Exception as e] clause of [read_index]. *)
Definition read_index_handler (e : exn) : M FileResponse.t :=
  logger_error ("Error serving index.html: " ++ str_exn e) ;;
  raise (HTTPException 500 "Internal server error").

Definition read_index (w : World) : M FileResponse.t :=
  try_except_Exception (read_index_body w) read_index_handler.

(** All three required paths are present in [w]. *)
Definition all_present (w : World) : Prop :=
  exists_ w STATIC_DIR = Return true /\ exists_ w ASSETS_DIR = Return true
  /\ exists_ w INDEX_PATH = Return true.

End App.

(** The path is there in [w]. *)
Definition present (w : World) (p : Path) : Prop := exists_ w p = Return true.

(** The record [verify_paths] emits for a missing path. *)
Definition missing_record (p : Path) : record :=
  (ERROR, "Required path does not exist: " ++ PurePath.str p).

(** [async with lifespan(app): body].  The generator runs up to its
    [yield], the body runs, and the generator is resumed after it.  An
    exception of the body is thrown into the generator at the [yield]; no
    [try] surrounds the [yield], so it leaves the generator at once. *)
Definition lifespan {A} (BASE_DIR : Path) (w : World) (body : M A) : M A :=
  lifespan_startup BASE_DIR w ;;
  a <- body ;;
  lifespan_shutdown ;;
  ret a.

(** A filesystem in which an entry exists only inside an existing
    directory. *)
Definition hierarchical (w : World) : Prop :=
  forall (p : Path) (name : string),
    exists_ w (p // name) = Return true -> exists_ w p = Return true.

(** ** Concrete worlds, for running the definitions *)

Module Sample.

Definition base : Path := PurePath.mkPath PurePath.Posix "/" ["srv"; "app"].

Definition html : bytes := [Byte.x3c; Byte.x68; Byte.x31; Byte.x3e].

Definition member (p : Path) (l : list Path) : bool :=
  existsb (PurePath.eqb p) l.

(** A world in which exactly the paths of [present] exist, the directories
    are those of [dirs], and every file reads as [html]. *)
Definition world (present dirs : list Path) : World :=
  {| exists_ := fun p => Return (member p present);
     is_dir := fun p => member p dirs;
     read_file := fun _ => Return html;
     cpu_count := Some 8 |}.

Definition complete : World :=
  world [STATIC_DIR base; ASSETS_DIR base; INDEX_PATH base]
        [STATIC_DIR base; ASSETS_DIR base].

(** The index document vanished after startup. *)
Definition no_index : World :=
  world [STATIC_DIR base; ASSETS_DIR base] [STATIC_DIR base; ASSETS_DIR base].

(** Only the index document is there. *)
Definition only_index : World := world [INDEX_PATH base] [].

(** All three paths exist, and [static/assets] is a regular file. *)
Definition assets_is_file : World :=
  world [STATIC_DIR base; ASSETS_DIR base; INDEX_PATH base] [STATIC_DIR base].

(** The index document exists and cannot be read. *)
Definition unreadable : World :=
  {| exists_ := exists_ complete;
     is_dir := is_dir complete;
     read_file := fun _ => Raise (OSError "[Errno 13] Permission denied");
     cpu_count := None |}.

(** The static directory exists and cannot be searched: asking about
    anything below it is refused. *)
Definition forbidden : World :=
  {| exists_ := fun p =>
       if PurePath.eqb p (STATIC_DIR base) then Return true
       else Raise (OSError "[Errno 13] Permission denied");
     is_dir := is_dir complete;
     read_file := fun _ => Raise (OSError "[Errno 13] Permission denied");
     cpu_count := Some 8 |}.

(** The check of the index document is interrupted from outside. *)
Definition interrupted : World :=
  {| exists_ := fun _ => Raise KeyboardInterrupt;
     is_dir := is_dir complete;
     read_file := fun _ => Return html;
     cpu_count := Some 8 |}.

(** Every path exists and is a directory. *)
Definition everything : World :=
  {| exists_ := fun _ => Return true;
     is_dir := fun _ => true;
     read_file := fun _ => Return html;
     cpu_count := Some 1 |}.

End Sample.

(** * Properties *)

(** ** Running the definitions *)

Example str_index_path :
  PurePath.str (INDEX_PATH Sample.base) = "/srv/app/static/index.html".
Proof. reflexivity. Qed.

Example str_index_path_windows :
  PurePath.str (INDEX_PATH (PurePath.mkPath PurePath.Windows "C:\" ["app"]))
  = "C:\app\static\index.html".
Proof. reflexivity. Qed.

Example verify_paths_complete :
  verify_paths Sample.base Sample.complete = ([], Return true).
Proof. reflexivity. Qed.

Example verify_paths_only_index :
  verify_paths Sample.base Sample.only_index =
  ([(ERROR, "Required path does not exist: /srv/app/static")], Return false).
Proof. reflexivity. Qed.

Example verify_paths_forbidden :
  verify_paths Sample.base Sample.forbidden =
  ([], Raise (OSError "[Errno 13] Permission denied")).
Proof. reflexivity. Qed.

Example lifespan_startup_no_index :
  lifespan_startup Sample.base Sample.no_index =
  ([(INFO, "Starting up application... 8");
    (ERROR, "Required path does not exist: /srv/app/static/index.html");
    (CRITICAL, "Required paths are missing!")],
   Raise (RuntimeError "Application cannot start: missing required paths")).
Proof. reflexivity. Qed.

Example startup_assets_is_file :
  startup Sample.base Sample.assets_is_file =
  ([], Raise (RuntimeError
                "Directory '/srv/app/static/assets' does not exist")).
Proof. reflexivity. Qed.

Example read_index_complete :
  read_index Sample.base Sample.complete =
  ([], Return (FileResponse (INDEX_PATH Sample.base) "text/html")).
Proof. reflexivity. Qed.

Example send_complete :
  send Sample.complete (FileResponse (INDEX_PATH Sample.base) "text/html") =
  Some {| status_code := 200; media_type := "text/html";
          body := Sample.html |}.
Proof. reflexivity. Qed.

(** An exception outside [Exception] is not touched by the handler. *)
Example try_except_lets_BaseException_through :
  try_except_Exception (raise KeyboardInterrupt)
    (fun _ => ret 0) = ([], Raise KeyboardInterrupt).
Proof. reflexivity. Qed.

(** ** The loop of [verify_paths] *)

Section Loop.

Variable w : World.

Lemma verify_paths_loop_all_present (paths : list Path) :
  Forall (present w) paths -> verify_paths_loop w paths = ([], Return true).
Proof.
  induction 1 as [|p rest Hp _ IH]; simpl.
  - reflexivity.
  - unfold present in Hp. rewrite Hp. simpl. rewrite IH. reflexivity.
Qed.

Lemma verify_paths_loop_first_missing (pre post : list Path) (p : Path) :
  Forall (present w) pre -> exists_ w p = Return false ->
  verify_paths_loop w (pre ++ p :: post)%list = ([missing_record p], Return false).
Proof.
  intros Hpre Hp. induction Hpre as [|q rest Hq _ IH]; simpl.
  - rewrite Hp. reflexivity.
  - unfold present in Hq. rewrite Hq. simpl. rewrite IH. reflexivity.
Qed.

(** When [exists()] raises, the loop stops there and has logged nothing. *)
Lemma verify_paths_loop_first_raising (pre post : list Path) (p : Path)
    (e : exn) :
  Forall (present w) pre -> exists_ w p = Raise e ->
  verify_paths_loop w (pre ++ p :: post)%list = ([], Raise e).
Proof.
  intros Hpre Hp. induction Hpre as [|q rest Hq _ IH]; simpl.
  - rewrite Hp. reflexivity.
  - unfold present in Hq. rewrite Hq. simpl. rewrite IH. reflexivity.
Qed.

(** The list splits at the first path whose check does not answer [True]:
    the check answers [False] there or raises; or there is no such path. *)
Lemma first_missing_split (paths : list Path) :
  Forall (present w) paths
  \/ exists pre p post,
       paths = (pre ++ p :: post)%list /\ Forall (present w) pre
       /\ (exists_ w p = Return false \/ exists e, exists_ w p = Raise e).
Proof.
  induction paths as [|q rest IH].
  - left. constructor.
  - destruct (exists_ w q) as [[|]|e] eqn:Hq.
    + destruct IH as [Hall | (pre & p & post & -> & Hpre & Hp)].
      * left. constructor; assumption.
      * right. exists (q :: pre), p, post. repeat split; trivial.
        constructor; assumption.
    + right. exists [], q, rest. repeat split; auto.
    + right. exists [], q, rest. repeat split; eauto.
Qed.

Lemma verify_paths_loop_true_inv (paths : list Path) :
  snd (verify_paths_loop w paths) = Return true -> Forall (present w) paths.
Proof.
  intros H. destruct (first_missing_split paths)
    as [Hall | (pre & p & post & -> & Hpre & [Hp | (e & Hp)])]; trivial.
  - rewrite (verify_paths_loop_first_missing pre post p Hpre Hp) in H.
    discriminate H.
  - rewrite (verify_paths_loop_first_raising pre post p e Hpre Hp) in H.
    discriminate H.
Qed.

Lemma verify_paths_loop_false_inv (paths : list Path) :
  snd (verify_paths_loop w paths) = Return false ->
  exists pre p post,
    paths = (pre ++ p :: post)%list /\ Forall (present w) pre
    /\ exists_ w p = Return false.
Proof.
  intros H. destruct (first_missing_split paths)
    as [Hall | (pre & p & post & -> & Hpre & [Hp | (e & Hp)])].
  - rewrite (verify_paths_loop_all_present _ Hall) in H. discriminate H.
  - exists pre, p, post. auto.
  - rewrite (verify_paths_loop_first_raising pre post p e Hpre Hp) in H.
    discriminate H.
Qed.

End Loop.

Lemma in_split_middle {A} (pre post : list A) (x : A) :
  In x (pre ++ x :: post)%list.
Proof. apply in_or_app. right. left. reflexivity. Qed.

Lemma all_present_Forall (BASE_DIR : Path) (w : World) :
  all_present BASE_DIR w <-> Forall (present w) (required_paths BASE_DIR).
Proof.
  unfold all_present, required_paths, present. split.
  - intros (H1 & H2 & H3). repeat constructor; assumption.
  - intros H. inversion_clear H as [|? ? H1 H']. inversion_clear H' as [|? ? H2 H''].
    inversion_clear H'' as [|? ? H3 _]. auto.
Qed.

(** What [lifespan] does up to its [yield], in the three cases of the
    check. *)
Lemma lifespan_startup_present (BASE_DIR : Path) (w : World) :
  all_present BASE_DIR w ->
  lifespan_startup BASE_DIR w =
  ([(INFO, "Starting up application... " ++ str_cpu_count (cpu_count w))],
   Return tt).
Proof.
  intros H. apply all_present_Forall in H.
  unfold lifespan_startup, verify_paths.
  rewrite (verify_paths_loop_all_present w _ H). reflexivity.
Qed.

Lemma lifespan_startup_missing (BASE_DIR : Path) (w : World)
    (pre post : list Path) (p : Path) :
  required_paths BASE_DIR = (pre ++ p :: post)%list ->
  Forall (present w) pre -> exists_ w p = Return false ->
  lifespan_startup BASE_DIR w =
  ([(INFO, "Starting up application... " ++ str_cpu_count (cpu_count w));
    missing_record p;
    (CRITICAL, "Required paths are missing!")],
   Raise (RuntimeError "Application cannot start: missing required paths")).
Proof.
  intros Hsplit Hpre Hp. unfold lifespan_startup, verify_paths.
  rewrite Hsplit, (verify_paths_loop_first_missing w pre post p Hpre Hp).
  reflexivity.
Qed.

Lemma lifespan_startup_raising (BASE_DIR : Path) (w : World)
    (pre post : list Path) (p : Path) (e : exn) :
  required_paths BASE_DIR = (pre ++ p :: post)%list ->
  Forall (present w) pre -> exists_ w p = Raise e ->
  lifespan_startup BASE_DIR w =
  ([(INFO, "Starting up application... " ++ str_cpu_count (cpu_count w))],
   Raise e).
Proof.
  intros Hsplit Hpre Hp. unfold lifespan_startup, verify_paths.
  rewrite Hsplit, (verify_paths_loop_first_raising w pre post p e Hpre Hp).
  reflexivity.
Qed.

(** The hook reaches its [yield] exactly when the three paths are there. *)
Lemma lifespan_startup_yields (BASE_DIR : Path) (w : World) :
  snd (lifespan_startup BASE_DIR w) = Return tt <-> all_present BASE_DIR w.
Proof.
  split.
  - intros H. apply all_present_Forall.
    destruct (first_missing_split w (required_paths BASE_DIR))
      as [Hall | (pre & p & post & Hs & Hpre & [Hp | (e & Hp)])]; trivial.
    + rewrite (lifespan_startup_missing BASE_DIR w pre post p Hs Hpre Hp) in H.
      discriminate H.
    + rewrite (lifespan_startup_raising BASE_DIR w pre post p e Hs Hpre Hp)
        in H. discriminate H.
  - intros H. now rewrite (lifespan_startup_present BASE_DIR w H).
Qed.

(** A required path that answers [False] keeps the hook from its [yield]. *)
Lemma lifespan_startup_absent_raises (BASE_DIR : Path) (w : World) (q : Path) :
  In q (required_paths BASE_DIR) -> exists_ w q = Return false ->
  exists e, snd (lifespan_startup BASE_DIR w) = Raise e.
Proof.
  intros Hin Hq.
  destruct (first_missing_split w (required_paths BASE_DIR))
    as [Hall | (pre & p & post & Hs & Hpre & [Hp | (e & Hp)])].
  - rewrite Forall_forall in Hall. specialize (Hall q Hin).
    unfold present in Hall. congruence.
  - rewrite (lifespan_startup_missing BASE_DIR w pre post p Hs Hpre Hp).
    eexists. reflexivity.
  - rewrite (lifespan_startup_raising BASE_DIR w pre post p e Hs Hpre Hp).
    eexists. reflexivity.
Qed.

(** Loading the module comes first: the lifespan is entered only when the
    assets path is a directory. *)
Lemma startup_cases (BASE_DIR : Path) (w : World) :
  startup BASE_DIR w =
  if is_dir w (ASSETS_DIR BASE_DIR) then lifespan_startup BASE_DIR w
  else ([], Raise (RuntimeError
                     ("Directory '" ++ PurePath.str (ASSETS_DIR BASE_DIR)
                      ++ "' does not exist"))).
Proof.
  unfold startup, load_module, StaticFiles.
  destruct (is_dir w (ASSETS_DIR BASE_DIR)); [|reflexivity].
  unfold ret, bind. now destruct (lifespan_startup BASE_DIR w).
Qed.

Lemma serve_listening (BASE_DIR : Path) (w : World) :
  snd (serve BASE_DIR w) = Listening <-> snd (startup BASE_DIR w) = Return tt.
Proof.
  unfold serve. destruct (startup BASE_DIR w) as [l [[]|e]]; simpl.
  - split; reflexivity.
  - split; discriminate.
Qed.

(** ** The startup check *)

(** C10: [verify_paths] walks the static root, the assets directory and the
    index file in that order.  At the first path that is missing (every
    path before it being present) it returns [False] having logged that path
    and nothing else, whatever the state of the paths after it; and it
    returns [True] exactly when all three paths exist, logging nothing. *)
Theorem verify_paths_short_circuit (BASE_DIR : Path) (w : World) :
  required_paths BASE_DIR =
    [STATIC_DIR BASE_DIR; ASSETS_DIR BASE_DIR; INDEX_PATH BASE_DIR]
  /\ (forall pre p post,
        required_paths BASE_DIR = (pre ++ p :: post)%list ->
        Forall (present w) pre -> exists_ w p = Return false ->
        verify_paths BASE_DIR w = ([missing_record p], Return false))
  /\ (snd (verify_paths BASE_DIR w) = Return true <-> all_present BASE_DIR w)
  /\ (all_present BASE_DIR w <-> verify_paths BASE_DIR w = ([], Return true)).
Proof.
  split; [reflexivity|]. split; [|split].
  - intros pre p post Hsplit Hpre Hp. unfold verify_paths. rewrite Hsplit.
    now apply verify_paths_loop_first_missing.
  - rewrite all_present_Forall. split.
    + apply verify_paths_loop_true_inv.
    + intros H. unfold verify_paths.
      now rewrite (verify_paths_loop_all_present w _ H).
  - rewrite all_present_Forall. split.
    + apply verify_paths_loop_all_present.
    + intros H. apply verify_paths_loop_true_inv.
      unfold verify_paths in H. now rewrite H.
Qed.

(** The check at work: with the static root and the index file both gone,
    only the static root, the first in the order, is reported. *)
Lemma verify_paths_short_circuit_witness :
  verify_paths Sample.base
    (Sample.world [ASSETS_DIR Sample.base] [ASSETS_DIR Sample.base]) =
  ([missing_record (STATIC_DIR Sample.base)], Return false).
Proof.
  apply (proj1 (proj2 (verify_paths_short_circuit Sample.base
                         (Sample.world [ASSETS_DIR Sample.base]
                            [ASSETS_DIR Sample.base])))
           [] (STATIC_DIR Sample.base)
           [ASSETS_DIR Sample.base; INDEX_PATH Sample.base]).
  - reflexivity.
  - constructor.
  - reflexivity.
Defined.

(** C2, as the claim has it, fails: with the static root, the assets path
    and the index file all existing, and the assets path a regular file, the
    mount that runs when the module is loaded raises, the lifespan is never
    entered and there is no listener. *)
Lemma startup_counterexample :
  ~ (snd (startup Sample.base Sample.assets_is_file) = Return tt
     <-> all_present Sample.base Sample.assets_is_file)
  /\ all_present Sample.base Sample.assets_is_file
  /\ snd (serve Sample.base Sample.assets_is_file) = NoListener.
Proof.
  assert (Hall : all_present Sample.base Sample.assets_is_file)
    by (repeat split).
  split; [|split; [exact Hall | reflexivity]].
  intros [_ H]. specialize (H Hall). discriminate H.
Qed.

(** C2, amended: startup succeeds, and the process has a listener, if and
    only if all three required paths exist and the assets path is a
    directory, which the mount checks when the module is loaded.  The
    lifespan hook on its own reaches its [yield] if and only if all three
    required paths exist.  If one of the three is absent the hook raises,
    startup fails and there is no listener. *)
Theorem startup_succeeds_iff (BASE_DIR : Path) (w : World) :
  (snd (lifespan_startup BASE_DIR w) = Return tt <-> all_present BASE_DIR w)
  /\ (snd (startup BASE_DIR w) = Return tt
      <-> all_present BASE_DIR w /\ is_dir w (ASSETS_DIR BASE_DIR) = true)
  /\ (snd (serve BASE_DIR w) = Listening
      <-> all_present BASE_DIR w /\ is_dir w (ASSETS_DIR BASE_DIR) = true)
  /\ (forall q,
        In q (required_paths BASE_DIR) -> exists_ w q = Return false ->
        (exists e, snd (lifespan_startup BASE_DIR w) = Raise e)
        /\ (exists e, snd (startup BASE_DIR w) = Raise e)
        /\ snd (serve BASE_DIR w) = NoListener).
Proof.
  assert (Hstart : snd (startup BASE_DIR w) = Return tt
                   <-> all_present BASE_DIR w
                       /\ is_dir w (ASSETS_DIR BASE_DIR) = true).
  { rewrite startup_cases. destruct (is_dir w (ASSETS_DIR BASE_DIR)).
    - rewrite lifespan_startup_yields. tauto.
    - simpl. split; [discriminate | intros [_ H]; discriminate H]. }
  split; [apply lifespan_startup_yields|]. split; [exact Hstart|].
  split; [now rewrite serve_listening|].
  intros q Hin Hq.
  destruct (lifespan_startup_absent_raises BASE_DIR w q Hin Hq) as [e He].
  split; [now exists e|].
  assert (Hs : exists e', snd (startup BASE_DIR w) = Raise e').
  { rewrite startup_cases. destruct (is_dir w (ASSETS_DIR BASE_DIR)).
    - now exists e.
    - eexists. reflexivity. }
  split; [exact Hs|]. destruct Hs as [e' He'].
  unfold serve. destruct (startup BASE_DIR w) as [l r]. simpl in He'.
  now rewrite He'.
Qed.

Lemma startup_succeeds_iff_witness :
  (exists e, snd (lifespan_startup Sample.base Sample.no_index) = Raise e)
  /\ (exists e, snd (startup Sample.base Sample.no_index) = Raise e)
  /\ snd (serve Sample.base Sample.no_index) = NoListener.
Proof.
  apply (proj2 (proj2 (proj2
           (startup_succeeds_iff Sample.base Sample.no_index)))
           (INDEX_PATH Sample.base)).
  - simpl. auto.
  - reflexivity.
Defined.

(** C7: when the startup check fails because a required path is missing,
    the startup of the lifespan hook logs an ERROR record naming a required
    path that is indeed missing, and a CRITICAL record for the configuration
    error. *)
Theorem startup_failure_is_logged (BASE_DIR : Path) (w : World) :
  snd (verify_paths BASE_DIR w) = Return false ->
  exists p,
    In p (required_paths BASE_DIR) /\ exists_ w p = Return false
    /\ In (ERROR, "Required path does not exist: " ++ PurePath.str p)
          (fst (lifespan_startup BASE_DIR w))
    /\ In (CRITICAL, "Required paths are missing!")
          (fst (lifespan_startup BASE_DIR w)).
Proof.
  intros H. apply verify_paths_loop_false_inv in H.
  destruct H as (pre & p & post & Hsplit & Hpre & Hp).
  exists p.
  rewrite (lifespan_startup_missing BASE_DIR w pre post p Hsplit Hpre Hp).
  split; [|split; [exact Hp|]].
  - rewrite Hsplit. apply in_split_middle.
  - unfold missing_record. simpl. auto.
Qed.

Lemma startup_failure_is_logged_witness :
  exists p,
    In p (required_paths Sample.base)
    /\ exists_ Sample.no_index p = Return false
    /\ In (ERROR, "Required path does not exist: " ++ PurePath.str p)
          (fst (lifespan_startup Sample.base Sample.no_index))
    /\ In (CRITICAL, "Required paths are missing!")
          (fst (lifespan_startup Sample.base Sample.no_index)).
Proof.
  apply (startup_failure_is_logged Sample.base Sample.no_index).
  reflexivity.
Defined.

(** ** The root handler *)

(** The handler, branch by branch. *)
Lemma read_index_cases (BASE_DIR : Path) (w : World) :
  read_index BASE_DIR w =
  match exists_ w (INDEX_PATH BASE_DIR) with
  | Return true =>
      ([], Return (FileResponse (INDEX_PATH BASE_DIR) "text/html"))
  | Return false =>
      ([(ERROR, "Error serving index.html: 404: Index file not found")],
       Raise (HTTPException 500 "Internal server error"))
  | Raise e =>
      if isinstance_Exception e then
        ([(ERROR, "Error serving index.html: " ++ str_exn e)],
         Raise (HTTPException 500 "Internal server error"))
      else ([], Raise e)
  end.
Proof.
  unfold read_index, read_index_body.
  destruct (exists_ w (INDEX_PATH BASE_DIR)) as [[|]|e]; reflexivity.
Qed.

(** The [try] body alone does raise the 404 when the index document is
    absent. *)
Lemma read_index_body_absent (BASE_DIR : Path) (w : World) :
  exists_ w (INDEX_PATH BASE_DIR) = Return false ->
  read_index_body BASE_DIR w =
  ([], Raise (HTTPException 404 "Index file not found")).
Proof.
  intros H. unfold read_index_body. rewrite H. reflexivity.
Qed.

(** C1 (the handler does otherwise): with the index document absent, the 404
    raised inside the [try] is an [Exception], so the [except] clause of the
    same function catches it, logs it and raises the 500 instead. *)
Theorem read_index_absent_raises_500 (BASE_DIR : Path) (w : World) :
  exists_ w (INDEX_PATH BASE_DIR) = Return false ->
  read_index BASE_DIR w =
  ([(ERROR, "Error serving index.html: 404: Index file not found")],
   Raise (HTTPException 500 "Internal server error")).
Proof.
  intros H. unfold read_index, read_index_body. rewrite H. reflexivity.
Qed.

Lemma read_index_absent_raises_500_witness :
  exists_ Sample.no_index (INDEX_PATH Sample.base) = Return false
  /\ read_index Sample.base Sample.no_index =
     ([(ERROR, "Error serving index.html: 404: Index file not found")],
      Raise (HTTPException 500 "Internal server error")).
Proof.
  split; [reflexivity|].
  apply (read_index_absent_raises_500 Sample.base Sample.no_index).
  reflexivity.
Defined.

(** C3: with the index document present and readable, the handler returns,
    logging nothing, the file response for the index document, and what
    goes out for it has status 200, content type text/html and the bytes of
    the document. *)
Theorem read_index_serves_document (BASE_DIR : Path) (w : World)
    (content : bytes) :
  exists_ w (INDEX_PATH BASE_DIR) = Return true ->
  read_file w (INDEX_PATH BASE_DIR) = Return content ->
  read_index BASE_DIR w =
    ([], Return (FileResponse (INDEX_PATH BASE_DIR) "text/html"))
  /\ send w (FileResponse (INDEX_PATH BASE_DIR) "text/html") =
     Some {| status_code := 200; media_type := "text/html";
             body := content |}.
Proof.
  intros He Hr. split.
  - unfold read_index, read_index_body. rewrite He. reflexivity.
  - unfold send. simpl. rewrite Hr. reflexivity.
Qed.

Lemma read_index_serves_document_witness :
  exists_ Sample.complete (INDEX_PATH Sample.base) = Return true
  /\ read_file Sample.complete (INDEX_PATH Sample.base) = Return Sample.html
  /\ read_index Sample.base Sample.complete =
       ([], Return (FileResponse (INDEX_PATH Sample.base) "text/html"))
  /\ send Sample.complete (FileResponse (INDEX_PATH Sample.base) "text/html") =
     Some {| status_code := 200; media_type := "text/html";
             body := Sample.html |}.
Proof.
  split; [reflexivity|]. split; [reflexivity|].
  apply (read_index_serves_document Sample.base Sample.complete Sample.html);
    reflexivity.
Defined.




(** * Further properties of the code *)

(** ** Strings and paths *)

Lemma append_assoc (s t u : string) : (s ++ t) ++ u = s ++ t ++ u.
Proof. induction s as [|c s IH]; simpl; [reflexivity | now rewrite IH]. Qed.

Lemma append_inv_head (s t u : string) : s ++ t = s ++ u -> t = u.
Proof.
  induction s as [|c s IH]; simpl; intros H; [exact H|].
  injection H as H. exact (IH H).
Qed.

Lemma length_append (s t : string) :
  String.length (s ++ t) = String.length s + String.length t.
Proof. induction s as [|c s IH]; simpl; [reflexivity | now rewrite IH]. Qed.

Lemma append_nonempty_neq (s t : string) : t <> "" -> s <> s ++ t.
Proof.
  intros Ht H. apply (f_equal String.length) in H.
  rewrite length_append in H. destruct t; [congruence | simpl in H; lia].
Qed.

Lemma concat_snoc (sep : string) (l : list string) (name : string) :
  l <> [] ->
  String.concat sep (l ++ [name]) = String.concat sep l ++ sep ++ name.
Proof.
  induction l as [|x [|y r] IH]; intros Hl.
  - congruence.
  - reflexivity.
  - change (x ++ sep ++ String.concat sep ((y :: r) ++ [name])
            = (x ++ sep ++ String.concat sep (y :: r)) ++ sep ++ name).
    rewrite IH by discriminate. now rewrite !append_assoc.
Qed.

Lemma str_nonempty_parts (p : Path) :
  PurePath.parts p <> [] ->
  PurePath.str p
  = PurePath.anchor p
    ++ String.concat (PurePath.sep (PurePath.flavour_of p)) (PurePath.parts p).
Proof.
  intros H. unfold PurePath.str.
  destruct (PurePath.anchor p), (PurePath.parts p); congruence.
Qed.

(** Joining a name to a path that has components appends the separator and
    the name to what the path prints as. *)
Lemma str_joinpath (p : Path) (name : string) :
  PurePath.parts p <> [] ->
  PurePath.str (p // name)
  = PurePath.str p ++ PurePath.sep (PurePath.flavour_of p) ++ name.
Proof.
  intros H. rewrite (str_nonempty_parts p H), str_nonempty_parts.
  - simpl. rewrite (concat_snoc _ _ name H). now rewrite append_assoc.
  - simpl. destruct (PurePath.parts p); discriminate.
Qed.

Lemma STATIC_DIR_parts (BASE_DIR : Path) :
  PurePath.parts (STATIC_DIR BASE_DIR) <> [].
Proof. simpl. destruct (PurePath.parts BASE_DIR); discriminate. Qed.

Lemma str_ASSETS_DIR (BASE_DIR : Path) :
  PurePath.str (ASSETS_DIR BASE_DIR)
  = PurePath.str (STATIC_DIR BASE_DIR)
    ++ PurePath.sep (PurePath.flavour_of BASE_DIR) ++ "assets".
Proof. apply (str_joinpath (STATIC_DIR BASE_DIR)), STATIC_DIR_parts. Qed.

Lemma str_INDEX_PATH (BASE_DIR : Path) :
  PurePath.str (INDEX_PATH BASE_DIR)
  = PurePath.str (STATIC_DIR BASE_DIR)
    ++ PurePath.sep (PurePath.flavour_of BASE_DIR) ++ "index.html".
Proof. apply (str_joinpath (STATIC_DIR BASE_DIR)), STATIC_DIR_parts. Qed.

Lemma str_required_injective (BASE_DIR : Path) (p q : Path) :
  In p (required_paths BASE_DIR) -> In q (required_paths BASE_DIR) ->
  PurePath.str p = PurePath.str q -> p = q.
Proof.
  intros Hp Hq H.
  assert (Hne : forall t, t <> "" ->
            PurePath.str (STATIC_DIR BASE_DIR)
            <> PurePath.str (STATIC_DIR BASE_DIR) ++ t)
    by (intros t; apply append_nonempty_neq).
  assert (Hsep : forall name,
            PurePath.sep (PurePath.flavour_of BASE_DIR) ++ name <> "")
    by (intros name; destruct (PurePath.flavour_of BASE_DIR); discriminate).
  unfold required_paths in Hp, Hq.
  destruct Hp as [<- | [<- | [<- | []]]], Hq as [<- | [<- | [<- | []]]];
    trivial; exfalso;
    rewrite ?str_ASSETS_DIR, ?str_INDEX_PATH in H;
    try (apply Hne in H; [exact H | apply Hsep]);
    try (symmetry in H; apply Hne in H; [exact H | apply Hsep]);
    do 2 apply append_inv_head in H; discriminate H.
Qed.

(** X12: the ERROR record of the startup check tells the required paths
    apart: two required paths with the same record are the same path. *)
Theorem missing_record_identifies_path (BASE_DIR : Path) (p q : Path) :
  In p (required_paths BASE_DIR) -> In q (required_paths BASE_DIR) ->
  missing_record p = missing_record q -> p = q.
Proof.
  intros Hp Hq H. apply (str_required_injective BASE_DIR p q Hp Hq).
  assert (H' : snd (missing_record p) = snd (missing_record q))
    by now rewrite H.
  exact (append_inv_head "Required path does not exist: " _ _ H').
Qed.

Lemma missing_record_identifies_path_witness :
  In (ASSETS_DIR Sample.base) (required_paths Sample.base)
  /\ ASSETS_DIR Sample.base = ASSETS_DIR Sample.base.
Proof.
  split; [simpl; auto|].
  apply (missing_record_identifies_path Sample.base).
  - simpl. auto.
  - simpl. auto.
  - reflexivity.
Defined.

(** ** The startup check, as a whole *)

(** X1: [verify_paths] has three outcomes only: [True] with nothing logged;
    [False] with exactly one ERROR record, which names a required path that
    does not exist; or the exception that [exists()] raised on a required
    path, with nothing logged. *)
Theorem verify_paths_outcome (BASE_DIR : Path) (w : World) :
  verify_paths BASE_DIR w = ([], Return true)
  \/ (exists p,
        In p (required_paths BASE_DIR) /\ exists_ w p = Return false
        /\ verify_paths BASE_DIR w = ([missing_record p], Return false))
  \/ (exists p e,
        In p (required_paths BASE_DIR) /\ exists_ w p = Raise e
        /\ verify_paths BASE_DIR w = ([], Raise e)).
Proof.
  unfold verify_paths.
  destruct (first_missing_split w (required_paths BASE_DIR))
    as [Hall | (pre & p & post & Hsplit & Hpre & [Hp | (e & Hp)])].
  - left. now apply verify_paths_loop_all_present.
  - right. left. exists p. rewrite Hsplit. split; [apply in_split_middle|].
    split; [exact Hp|]. now apply verify_paths_loop_first_missing.
  - right. right. exists p, e. rewrite Hsplit.
    split; [apply in_split_middle|].
    split; [exact Hp|]. now apply verify_paths_loop_first_raising.
Qed.

(** X2: the startup half of [lifespan] has three outcomes only.  It reaches
    the [yield] having logged the one INFO record; or it raises the
    [RuntimeError] having logged, in this order, the INFO record, the ERROR
    record of a missing required path and the CRITICAL record; or it lets
    through the exception that [exists()] raised on a required path, having
    logged the INFO record and neither of the other two. *)
Theorem lifespan_startup_outcome (BASE_DIR : Path) (w : World) :
  let started :=
    (INFO, "Starting up application... " ++ str_cpu_count (cpu_count w)) in
  lifespan_startup BASE_DIR w = ([started], Return tt)
  \/ (exists p,
        In p (required_paths BASE_DIR) /\ exists_ w p = Return false
        /\ lifespan_startup BASE_DIR w =
           ([started; missing_record p;
             (CRITICAL, "Required paths are missing!")],
            Raise (RuntimeError
                     "Application cannot start: missing required paths")))
  \/ (exists p e,
        In p (required_paths BASE_DIR) /\ exists_ w p = Raise e
        /\ lifespan_startup BASE_DIR w = ([started], Raise e)).
Proof.
  intros started.
  destruct (first_missing_split w (required_paths BASE_DIR))
    as [Hall | (pre & p & post & Hsplit & Hpre & [Hp | (e & Hp)])].
  - left. apply lifespan_startup_present. now apply all_present_Forall.
  - right. left. exists p. split; [rewrite Hsplit; apply in_split_middle|].
    split; [exact Hp|]. now apply (lifespan_startup_missing _ _ pre post).
  - right. right. exists p, e.
    split; [rewrite Hsplit; apply in_split_middle|].
    split; [exact Hp|]. now apply (lifespan_startup_raising _ _ pre post p e).
Qed.

(** X13: on a filesystem where an entry exists only inside an existing
    directory, the check of the static root adds nothing: [verify_paths]
    returns [True] exactly when the assets directory and the index file
    exist. *)
Theorem verify_paths_hierarchical (BASE_DIR : Path) (w : World) :
  hierarchical w ->
  (snd (verify_paths BASE_DIR w) = Return true
   <-> exists_ w (ASSETS_DIR BASE_DIR) = Return true
       /\ exists_ w (INDEX_PATH BASE_DIR) = Return true).
Proof.
  intros Hw. split.
  - intros H. apply verify_paths_loop_true_inv in H.
    apply all_present_Forall in H. destruct H as (_ & Ha & Hi). now split.
  - intros (Ha & Hi). unfold verify_paths.
    rewrite verify_paths_loop_all_present; [reflexivity|].
    apply all_present_Forall. split; [|now split].
    exact (Hw (STATIC_DIR BASE_DIR) "assets" Ha).
Qed.

Lemma verify_paths_hierarchical_witness :
  snd (verify_paths Sample.base Sample.everything) = Return true
  <-> exists_ Sample.everything (ASSETS_DIR Sample.base) = Return true
      /\ exists_ Sample.everything (INDEX_PATH Sample.base) = Return true.
Proof.
  apply (verify_paths_hierarchical Sample.base Sample.everything).
  intros p name _. reflexivity.
Defined.

(** ** The lifespan around the application *)

(** X3: when the startup check fails for a missing path, the body inside the
    lifespan never runs: whatever the body is, the outcome is the one of the
    startup, and the shutdown record is not logged. *)
Theorem lifespan_startup_failure {A} (BASE_DIR : Path) (w : World)
    (body : M A) :
  snd (verify_paths BASE_DIR w) = Return false ->
  lifespan BASE_DIR w body =
    (fst (lifespan_startup BASE_DIR w),
     Raise (RuntimeError "Application cannot start: missing required paths"))
  /\ ~ In (INFO, "Shutting down application...")
          (fst (lifespan BASE_DIR w body)).
Proof.
  intros H. apply verify_paths_loop_false_inv in H.
  destruct H as (pre & p & post & Hsplit & Hpre & Hp). unfold lifespan.
  rewrite (lifespan_startup_missing BASE_DIR w pre post p Hsplit Hpre Hp).
  simpl. split; [reflexivity|].
  unfold missing_record. intros [H | [H | [H | []]]]; discriminate H.
Qed.

Lemma lifespan_startup_failure_witness :
  lifespan Sample.base Sample.only_index
    (read_index Sample.base Sample.only_index) =
    (fst (lifespan_startup Sample.base Sample.only_index),
     Raise (RuntimeError "Application cannot start: missing required paths"))
  /\ ~ In (INFO, "Shutting down application...")
          (fst (lifespan Sample.base Sample.only_index
                  (read_index Sample.base Sample.only_index))).
Proof.
  apply (lifespan_startup_failure Sample.base Sample.only_index
           (read_index Sample.base Sample.only_index)).
  reflexivity.
Defined.

(** X4: with all three paths present and a body that returns, the lifespan
    logs the startup record, then what the body logs, then the shutdown
    record, and hands back the body's value. *)
Theorem lifespan_body_returns {A} (BASE_DIR : Path) (w : World)
    (body : M A) (l : list record) (a : A) :
  all_present BASE_DIR w -> body = (l, Return a) ->
  lifespan BASE_DIR w body =
  ((((INFO, ("Starting up application... " ++ str_cpu_count (cpu_count w))
              %string) :: l)
      ++ [(INFO, "Shutting down application...")])%list,
   Return a).
Proof.
  intros Hall ->. unfold lifespan.
  rewrite (lifespan_startup_present BASE_DIR w Hall). reflexivity.
Qed.

Lemma lifespan_body_returns_witness :
  lifespan Sample.base Sample.complete
    (verify_paths Sample.base Sample.only_index) =
  ([(INFO, "Starting up application... 8");
    (ERROR, "Required path does not exist: /srv/app/static");
    (INFO, "Shutting down application...")],
   Return false).
Proof.
  apply (lifespan_body_returns Sample.base Sample.complete
           (verify_paths Sample.base Sample.only_index)
           [(ERROR, "Required path does not exist: /srv/app/static")]).
  - repeat split.
  - reflexivity.
Defined.

(** X5: with all three paths present and a body that raises, the exception
    leaves the lifespan as it is and the shutdown code is skipped: the log
    ends with what the body logged. *)
Theorem lifespan_body_raises {A} (BASE_DIR : Path) (w : World)
    (body : M A) (l : list record) (e : exn) :
  all_present BASE_DIR w -> body = (l, Raise e) ->
  lifespan BASE_DIR w body =
  ((INFO, "Starting up application... " ++ str_cpu_count (cpu_count w)) :: l,
   Raise e).
Proof.
  intros Hall ->. unfold lifespan.
  rewrite (lifespan_startup_present BASE_DIR w Hall). reflexivity.
Qed.

Lemma lifespan_body_raises_witness :
  lifespan Sample.base Sample.complete
    (read_index Sample.base Sample.no_index) =
  ([(INFO, "Starting up application... 8");
    (ERROR, "Error serving index.html: 404: Index file not found")],
   Raise (HTTPException 500 "Internal server error")).
Proof.
  apply (lifespan_body_raises Sample.base Sample.complete
           (read_index Sample.base Sample.no_index)).
  - repeat split.
  - reflexivity.
Defined.

(** ** The root handler, as a whole *)

(** X6: the only [HTTPException] that ever leaves [read_index] is the 500
    with the detail "Internal server error"; in particular the handler never
    answers 404. *)
Theorem read_index_only_500 (BASE_DIR : Path) (w : World)
    (status : nat) (detail : string) :
  snd (read_index BASE_DIR w) = Raise (HTTPException status detail) ->
  status = 500 /\ detail = "Internal server error".
Proof.
  rewrite read_index_cases.
  destruct (exists_ w (INDEX_PATH BASE_DIR)) as [[|]|e].
  - discriminate.
  - simpl. intros H. inversion H. auto.
  - destruct e; simpl; intros H; inversion H; auto.
Qed.

Lemma read_index_only_500_witness :
  snd (read_index Sample.base Sample.no_index)
  = Raise (HTTPException 500 "Internal server error")
  /\ 500 = 500 /\ "Internal server error" = "Internal server error".
Proof.
  split; [reflexivity|].
  apply (read_index_only_500 Sample.base Sample.no_index 500
           "Internal server error").
  reflexivity.
Defined.

(** X7: whenever [read_index] returns, what it returns is the file response
    for the index document, with status 200 and content type text/html; the
    index document existed when the handler looked, and nothing was
    logged.  Whether the document can be read plays no part. *)
Theorem read_index_return_inv (BASE_DIR : Path) (w : World)
    (r : FileResponse.t) :
  snd (read_index BASE_DIR w) = Return r ->
  FileResponse.path r = INDEX_PATH BASE_DIR
  /\ FileResponse.status_code r = 200
  /\ FileResponse.media_type r = "text/html"
  /\ exists_ w (INDEX_PATH BASE_DIR) = Return true
  /\ fst (read_index BASE_DIR w) = [].
Proof.
  rewrite read_index_cases.
  destruct (exists_ w (INDEX_PATH BASE_DIR)) as [[|]|e].
  - simpl. intros H. injection H as <-. repeat split.
  - discriminate.
  - destruct (isinstance_Exception e); discriminate.
Qed.

Lemma read_index_return_inv_witness :
  let r := FileResponse (INDEX_PATH Sample.base) "text/html" in
  FileResponse.path r = INDEX_PATH Sample.base
  /\ FileResponse.status_code r = 200
  /\ FileResponse.media_type r = "text/html"
  /\ exists_ Sample.unreadable (INDEX_PATH Sample.base) = Return true
  /\ fst (read_index Sample.base Sample.unreadable) = [].
Proof.
  apply (read_index_return_inv Sample.base Sample.unreadable).
  reflexivity.
Defined.

(** X8: an exception of the check of the index document that is not an
    [Exception] (an interrupt, a cancellation) passes through [read_index]
    untouched: it is neither logged nor turned into a 500. *)
Theorem read_index_BaseException_passes (BASE_DIR : Path) (w : World)
    (e : exn) :
  exists_ w (INDEX_PATH BASE_DIR) = Raise e ->
  isinstance_Exception e = false ->
  read_index BASE_DIR w = ([], Raise e).
Proof.
  intros He Hi. now rewrite read_index_cases, He, Hi.
Qed.

Lemma read_index_BaseException_passes_witness :
  read_index Sample.base Sample.interrupted = ([], Raise KeyboardInterrupt).
Proof.
  apply (read_index_BaseException_passes Sample.base Sample.interrupted);
    reflexivity.
Defined.

(** X9: [read_index] logs exactly when it answers the 500: every 500 comes
    with a log record, and nothing else is ever logged. *)
Theorem read_index_logs_iff_500 (BASE_DIR : Path) (w : World) :
  fst (read_index BASE_DIR w) <> []
  <-> snd (read_index BASE_DIR w)
      = Raise (HTTPException 500 "Internal server error").
Proof.
  rewrite read_index_cases.
  destruct (exists_ w (INDEX_PATH BASE_DIR)) as [[|]|e].
  - simpl. split; [congruence | discriminate].
  - simpl. split; congruence.
  - destruct e; simpl; split; congruence.
Qed.

(** X10: startup and request on the same filesystem: if the lifespan reached
    its [yield] and the index document reads as [content], then [GET /]
    returns the file response for it, logging nothing, and what goes out
    has status 200, content type text/html and [content] as its body. *)
Theorem read_index_after_startup (BASE_DIR : Path) (w : World)
    (content : bytes) :
  snd (lifespan_startup BASE_DIR w) = Return tt ->
  read_file w (INDEX_PATH BASE_DIR) = Return content ->
  read_index BASE_DIR w =
    ([], Return (FileResponse (INDEX_PATH BASE_DIR) "text/html"))
  /\ send w (FileResponse (INDEX_PATH BASE_DIR) "text/html") =
     Some {| status_code := 200; media_type := "text/html";
             body := content |}.
Proof.
  intros Hs Hr. apply lifespan_startup_yields in Hs.
  destruct Hs as (_ & _ & Hi). split.
  - now rewrite read_index_cases, Hi.
  - unfold send. simpl. now rewrite Hr.
Qed.

Lemma read_index_after_startup_witness :
  read_index Sample.base Sample.complete =
    ([], Return (FileResponse (INDEX_PATH Sample.base) "text/html"))
  /\ send Sample.complete (FileResponse (INDEX_PATH Sample.base) "text/html") =
     Some {| status_code := 200; media_type := "text/html";
             body := Sample.html |}.
Proof.
  apply (read_index_after_startup Sample.base Sample.complete Sample.html);
    reflexivity.
Defined.

(** ** What the operations look at *)

Lemma verify_paths_loop_ext (w w' : World) (paths : list Path) :
  (forall p, In p paths -> exists_ w p = exists_ w' p) ->
  verify_paths_loop w paths = verify_paths_loop w' paths.
Proof.
  induction paths as [|q rest IH]; intros H; simpl; [reflexivity|].
  rewrite <- (H q (or_introl eq_refl)).
  destruct (exists_ w q) as [[|]|e]; try reflexivity.
  simpl. rewrite IH; [reflexivity|]. intros p Hp. apply H. now right.
Qed.

(** X14: the startup check depends on nothing but what [exists()] answers
    for the three required paths: on two filesystems that agree on those,
    whatever else differs, [verify_paths] logs and returns the same. *)
Theorem verify_paths_frame (BASE_DIR : Path) (w w' : World) :
  (forall p, In p (required_paths BASE_DIR) -> exists_ w p = exists_ w' p) ->
  verify_paths BASE_DIR w = verify_paths BASE_DIR w'.
Proof. apply verify_paths_loop_ext. Qed.

Lemma verify_paths_frame_witness :
  verify_paths Sample.base Sample.complete
  = verify_paths Sample.base Sample.unreadable.
Proof.
  apply (verify_paths_frame Sample.base Sample.complete Sample.unreadable).
  intros p _. reflexivity.
Defined.

(** X15: [read_index] depends on nothing but what [exists()] answers for
    the index document: on two filesystems that agree on that, the handler
    logs and answers the same, whatever the state of the static root, of the
    assets directory and of the contents of the files. *)
Theorem read_index_frame (BASE_DIR : Path) (w w' : World) :
  exists_ w (INDEX_PATH BASE_DIR) = exists_ w' (INDEX_PATH BASE_DIR) ->
  read_index BASE_DIR w = read_index BASE_DIR w'.
Proof.
  intros He. now rewrite !read_index_cases, He.
Qed.

Lemma read_index_frame_witness :
  read_index Sample.base Sample.only_index
  = read_index Sample.base Sample.unreadable.
Proof.
  apply (read_index_frame Sample.base Sample.only_index Sample.unreadable).
  reflexivity.
Defined.
